(** * TCP header decoder (main.go): shallow embedding and verified properties

    The Go program declares [type Packet struct { Header []byte }] and ten
    accessor methods that read the fixed 20-byte part of a TCP header.
    Multi-byte fields go through [binary.BigEndian]; the packed fields of
    bytes 12 and 13 go through [fmt.Sprintf] with the verb [%b], string
    slicing and [strconv.ParseInt].

    Go run-time panics (slice bounds, index out of range) are modelled by an
    explicit result type; unsigned integers are [Z] with the wrap-around
    written out. *)

From Stdlib Require Import ZArith NArith List String Ascii Bool Lia.
From Stdlib Require Import Init.Byte.
Import ListNotations.

Local Open Scope Z_scope.

(* ================================================================== *)
(** ** Outcomes of a Go call: a value, or a run-time panic *)
(* ================================================================== *)

Inductive runtime_error : Type :=
| SliceBoundsOutOfRange    (* s[lo:hi] with hi > cap (or len, for a string) or lo > hi *)
| IndexOutOfRange.         (* s[i] with i >= len *)

Inductive result (A : Type) : Type :=
| Ok (a : A)
| Panic (e : runtime_error).

Arguments Ok {A} a.
Arguments Panic {A} e.

Definition bind {A B : Type} (r : result A) (k : A -> result B) : result B :=
  match r with
  | Ok a => k a
  | Panic e => Panic e
  end.

Notation "x <- r ;; k" := (bind r (fun x => k))
  (at level 61, r at next level, right associativity).

Definition returns {A : Type} (r : result A) : Prop := exists v, r = Ok v.
Definition panics {A : Type} (r : result A) : Prop := exists e, r = Panic e.

(* ================================================================== *)
(** ** Go slices of bytes *)
(* ================================================================== *)

(** A [[]byte] value is a window on a backing array: [elems] are the
    [len] elements of the slice, [spare] the elements of the backing array
    after them, up to the capacity.  Indexing is checked against [len],
    re-slicing against [cap]. *)
Record slice : Type := mkSlice {
  elems : list byte;
  spare : list byte
}.

Definition len (s : slice) : nat := List.length (elems s).
Definition cap (s : slice) : nat :=
  (List.length (elems s) + List.length (spare s))%nat.

Definition of_bytes (l : list byte) : slice := mkSlice l [].

(** [s[lo:hi]] *)
Definition reslice (s : slice) (lo hi : nat) : result slice :=
  if ((lo <=? hi) && (hi <=? cap s))%nat then
    let rest := skipn lo (elems s ++ spare s) in
    Ok (mkSlice (firstn (hi - lo) rest) (skipn (hi - lo) rest))
  else Panic SliceBoundsOutOfRange.

(** [s[i]] *)
Definition index (s : slice) (i : nat) : result byte :=
  match nth_error (elems s) i with
  | Some b => Ok b
  | None => Panic IndexOutOfRange
  end.

(* ================================================================== *)
(** ** Fixed-width unsigned integers *)
(* ================================================================== *)

Definition u8 (b : byte) : Z := Z.of_N (Byte.to_N b).

Definition wrap (w : Z) (x : Z) : Z := x mod 2 ^ w.

Definition to_uint8  : Z -> Z := wrap 8.
Definition to_uint16 : Z -> Z := wrap 16.
Definition to_uint32 : Z -> Z := wrap 32.

(* ================================================================== *)
(** ** encoding/binary: BigEndian.Uint16 and BigEndian.Uint32 *)
(* ================================================================== *)

Module BigEndian.

(** [_ = b[1]; return uint16(b[1]) | uint16(b[0])<<8] *)
Definition Uint16 (b : slice) : result Z :=
  _  <- index b 1 ;;
  b1 <- index b 1 ;;
  b0 <- index b 0 ;;
  Ok (Z.lor (to_uint16 (u8 b1)) (to_uint16 (Z.shiftl (to_uint16 (u8 b0)) 8))).

(** [_ = b[3];
     return uint32(b[3]) | uint32(b[2])<<8 | uint32(b[1])<<16 | uint32(b[0])<<24] *)
Definition Uint32 (b : slice) : result Z :=
  _  <- index b 3 ;;
  b3 <- index b 3 ;;
  b2 <- index b 2 ;;
  b1 <- index b 1 ;;
  b0 <- index b 0 ;;
  Ok (Z.lor (Z.lor (Z.lor (to_uint32 (u8 b3))
                          (to_uint32 (Z.shiftl (to_uint32 (u8 b2)) 8)))
                   (to_uint32 (Z.shiftl (to_uint32 (u8 b1)) 16)))
            (to_uint32 (Z.shiftl (to_uint32 (u8 b0)) 24))).

End BigEndian.

(* ================================================================== *)
(** ** Go strings: length and slicing *)
(* ================================================================== *)

(** [s[lo:hi]] on a string: bounds are checked against the length. *)
Definition str_slice (s : string) (lo hi : nat) : result string :=
  if ((lo <=? hi) && (hi <=? String.length s))%nat then
    Ok (substring lo (hi - lo) s)
  else Panic SliceBoundsOutOfRange.

(** [a != b] on strings *)
Definition str_neq (a b : string) : bool := negb (String.eqb a b).

(* ================================================================== *)
(** ** fmt: the verb %b on an unsigned integer *)
(* ================================================================== *)

Module fmt.

(** The digit loop of [fmtInteger] for base 2:
    [for u >= 2 { i--; buf[i] = '0' + u&1; u >>= 1 }; i--; buf[i] = digits[u]]
    writes the digits from the least significant one, leftwards. *)
Fixpoint digits2 (p : positive) (buf : string) : string :=
  match p with
  | xH    => String "1" buf
  | xO p' => digits2 p' (String "0" buf)
  | xI p' => digits2 p' (String "1" buf)
  end.

Definition digits (u : N) : string :=
  match u with
  | N0 => "0"%string
  | Npos p => digits2 p EmptyString
  end.

(** [for i > 0 && prec > len(buf)-i { i--; buf[i] = '0' }] *)
Fixpoint zeros (n : nat) (buf : string) : string :=
  match n with
  | O => buf
  | S n' => String "0" (zeros n' buf)
  end.

(** [Sprintf("%.<prec>b", u)]: a precision of 0 with the value 0 prints
    nothing; otherwise the digits, padded with zeros on the left up to
    [prec] digits. *)
Definition Sprintf_prec_b (prec : nat) (u : N) : string :=
  if ((prec =? 0)%nat && (u =? 0)%N)%bool then EmptyString
  else let d := digits u in zeros (prec - String.length d) d.

(** [Sprintf("%b", u)]: no precision, no padding. *)
Definition Sprintf_b (u : N) : string := digits u.

End fmt.

(* ================================================================== *)
(** ** strconv.ParseInt *)
(* ================================================================== *)

Module strconv.

Inductive NumError : Type := ErrSyntax | ErrRange.

Definition digit_val (c : ascii) : option Z :=
  let n := Z.of_nat (nat_of_ascii c) in
  if (48 <=? n) && (n <=? 57) then Some (n - 48)
  else if (97 <=? n) && (n <=? 122) then Some (n - 97 + 10)
  else if (65 <=? n) && (n <=? 90) then Some (n - 65 + 10)
  else None.

(** The digit loop of [ParseUint]: a character that is no digit of the
    base is a syntax error; a value above [maxVal] is a range error, with
    [maxVal] returned.  (Go tests the overflow of the 64-bit accumulator
    separately; over [Z] both tests are the one comparison with [maxVal],
    which is at most 2^64 - 1.) *)
Fixpoint parse_digits (s : string) (base maxVal n : Z) : Z * option NumError :=
  match s with
  | EmptyString => (n, None)
  | String c s' =>
      match digit_val c with
      | None => (0, Some ErrSyntax)
      | Some d =>
          if base <=? d then (0, Some ErrSyntax)
          else
            let n1 := n * base + d in
            if maxVal <? n1 then (maxVal, Some ErrRange)
            else parse_digits s' base maxVal n1
      end
  end.

Definition ParseUint (s : string) (base bitSize : Z) : Z * option NumError :=
  match s with
  | EmptyString => (0, Some ErrSyntax)
  | _ => parse_digits s base (2 ^ bitSize - 1) 0
  end.

(** [ParseInt(s, base, bitSize)] for an explicit base and a bit size
    between 1 and 64: optional sign, then [ParseUint], then the check
    against the signed range of [bitSize] bits. *)
Definition ParseInt (s : string) (base bitSize : Z) : Z * option NumError :=
  match s with
  | EmptyString => (0, Some ErrSyntax)
  | String c s' =>
      let '(neg, body) :=
        if Ascii.eqb c "+" then (false, s')
        else if Ascii.eqb c "-" then (true, s')
        else (false, s) in
      match ParseUint body base bitSize with
      | (_, Some ErrSyntax) => (0, Some ErrSyntax)
      | (un, _) =>
          let cutoff := 2 ^ (bitSize - 1) in
          if negb neg && (cutoff <=? un) then (cutoff - 1, Some ErrRange)
          else if neg && (cutoff <? un) then (- cutoff, Some ErrRange)
          else ((if neg then - un else un), None)
      end
  end.

End strconv.

(* ================================================================== *)
(** ** main.go: Packet and its accessors *)
(* ================================================================== *)

Record Packet : Type := mkPacket { Header : slice }.

Definition SourcePort (p : Packet) : result Z :=
  s <- reslice (Header p) 0 2 ;; BigEndian.Uint16 s.

Definition DestinationPort (p : Packet) : result Z :=
  s <- reslice (Header p) 2 4 ;; BigEndian.Uint16 s.

Definition SequenceNumber (p : Packet) : result Z :=
  s <- reslice (Header p) 4 8 ;; BigEndian.Uint32 s.

Definition AckNumber (p : Packet) : result Z :=
  s <- reslice (Header p) 8 12 ;; BigEndian.Uint32 s.

(** [do := fmt.Sprintf("%b", p.Header[12:14][0])
     output, _ := strconv.ParseInt(do[0:4], 2, 5)
     return uint8(output)] *)
Definition DO (p : Packet) : result Z :=
  s  <- reslice (Header p) 12 14 ;;
  b  <- index s 0 ;;
  let do := fmt.Sprintf_b (Byte.to_N b) in
  d  <- str_slice do 0 4 ;;
  let output := fst (strconv.ParseInt d 2 5) in
  Ok (to_uint8 output).

(** [rs := fmt.Sprintf("%b", p.Header[12:14][0])
     output, _ := strconv.ParseInt(rs[4:7], 2, 4)
     return uint8(output)] *)
Definition RSV (p : Packet) : result Z :=
  s  <- reslice (Header p) 12 14 ;;
  b  <- index s 0 ;;
  let rs := fmt.Sprintf_b (Byte.to_N b) in
  d  <- str_slice rs 4 7 ;;
  let output := fst (strconv.ParseInt d 2 4) in
  Ok (to_uint8 output).

(** The anonymous struct returned by [Flags]. *)
Record FlagSet : Type := mkFlags {
  SYN : bool;
  ACK : bool;
  RST : bool;
  FIN : bool;
  PSH : bool;
  URG : bool
}.

(** [if cond { data.F = true }] on a flag whose value so far is [old]. *)
Definition set_if (cond old : bool) : bool := if cond then true else old.

Definition Flags (p : Packet) : result FlagSet :=
  s1  <- reslice (Header p) 12 14 ;;
  b12 <- index s1 0 ;;
  let fg1 := fmt.Sprintf_prec_b 1 (Byte.to_N b12) in
  s2  <- reslice (Header p) 12 14 ;;
  b13 <- index s2 1 ;;
  let fg2 := fmt.Sprintf_prec_b 8 (Byte.to_N b13) in
  let data := mkFlags false false false false false false in
  c <- str_slice fg1 7 8 ;;
  let data := mkFlags (set_if (str_neq c "0") (SYN data))
                      (ACK data) (RST data) (FIN data) (PSH data) (URG data) in
  c <- str_slice fg2 0 1 ;;
  let data := mkFlags (SYN data) (set_if (str_neq c "0") (ACK data))
                      (RST data) (FIN data) (PSH data) (URG data) in
  c <- str_slice fg2 1 2 ;;
  let data := mkFlags (SYN data) (ACK data) (set_if (str_neq c "0") (RST data))
                      (FIN data) (PSH data) (URG data) in
  c <- str_slice fg2 2 3 ;;
  let data := mkFlags (SYN data) (ACK data) (RST data)
                      (set_if (str_neq c "0") (FIN data)) (PSH data) (URG data) in
  c <- str_slice fg2 3 4 ;;
  let data := mkFlags (SYN data) (ACK data) (RST data) (FIN data)
                      (set_if (str_neq c "0") (PSH data)) (URG data) in
  c <- str_slice fg2 4 5 ;;
  let data := mkFlags (SYN data) (ACK data) (RST data) (FIN data) (PSH data)
                      (set_if (str_neq c "0") (URG data)) in
  Ok data.

Definition Window (p : Packet) : result Z :=
  s <- reslice (Header p) 14 16 ;; BigEndian.Uint16 s.

Definition Checksum (p : Packet) : result Z :=
  s <- reslice (Header p) 16 18 ;; BigEndian.Uint16 s.

Definition UrgentPointer (p : Packet) : result Z :=
  s <- reslice (Header p) 18 20 ;; BigEndian.Uint16 s.

(** The header literal of [main]. *)
Definition sample : Packet :=
  mkPacket (of_bytes
    [xb7; x4e; x01; xbb; xb1; x46; xa4; x61; x00; x00;
     x00; x00; xa0; x02; xfa; xf0; x9b; xba; x00; x00]).

(* ================================================================== *)
(** ** The documented layout, in the words of the specification *)
(* ================================================================== *)

(** Byte [i] of the header (0 outside of it). *)
Definition byte_at (p : Packet) (i : nat) : byte := nth i (elems (Header p)) x00.

(** The bytes at the indices [lo, hi). *)
Definition bytes_between (p : Packet) (lo hi : nat) : list byte :=
  firstn (hi - lo) (skipn lo (elems (Header p))).

(** Unsigned big-endian interpretation: most significant byte first. *)
Definition big_endian (bs : list byte) : Z :=
  fold_left (fun acc b => acc * 256 + u8 b) bs 0.

(** Bit [i] of a byte, counting bit 0 as the most significant bit. *)
Definition msb0_bit (b : byte) (i : Z) : bool := Z.testbit (u8 b) (7 - i).

(** The most significant nibble of a byte. *)
Definition top_nibble (b : byte) : Z := Z.shiftr (u8 b) 4.

(** Bits 4, 5 and 6 of a byte (bit 0 the most significant) as a number. *)
Definition bits_4_to_6 (b : byte) : Z := Z.land (Z.shiftr (u8 b) 1) 7.

(** The header of [main] with bytes 12 and 13 replaced. *)
Definition sample_with (b12 b13 : byte) : Packet :=
  mkPacket (of_bytes
    [xb7; x4e; x01; xbb; xb1; x46; xa4; x61; x00; x00;
     x00; x00; b12; b13; xfa; xf0; x9b; xba; x00; x00]).

(** The flags by the documented layout: SYN the least significant bit of
    byte 12, then ACK, RST, FIN, PSH, URG from the most significant bit of
    byte 13 downwards. *)
Definition documented_flags (b12 b13 : byte) : FlagSet :=
  mkFlags (Z.testbit (u8 b12) 0)
          (msb0_bit b13 0) (msb0_bit b13 1) (msb0_bit b13 2)
          (msb0_bit b13 3) (msb0_bit b13 4).

Definition bit_char (b : bool) : string := if b then "1"%string else "0"%string.

(** The byte with the given value (0 when the value is no byte). *)
Definition byte_of_Z (z : Z) : byte :=
  match Byte.of_N (Z.to_N z) with
  | Some b => b
  | None => x00
  end.

(** Byte 12 by the documented layout: DataOffset in the top nibble,
    Reserved in bits 4 to 6, SYN in the least significant bit. *)
Definition pack_byte12 (do rsv : Z) (syn : bool) : Z :=
  Z.lor (Z.lor (Z.shiftl do 4) (Z.shiftl rsv 1)) (Z.b2z syn).

(** Byte 13 by the documented layout: ACK, RST, FIN, PSH, URG in the top
    five bits. *)
Definition pack_byte13 (f : FlagSet) : Z :=
  Z.lor (Z.lor (Z.lor (Z.lor (Z.shiftl (Z.b2z (ACK f)) 7)
                             (Z.shiftl (Z.b2z (RST f)) 6))
                      (Z.shiftl (Z.b2z (FIN f)) 5))
               (Z.shiftl (Z.b2z (PSH f)) 4))
        (Z.shiftl (Z.b2z (URG f)) 3).

(** The header of [main] with bytes 12 and 13 packed from the fields. *)
Definition packed (do rsv : Z) (f : FlagSet) : Packet :=
  sample_with (byte_of_Z (pack_byte12 do rsv (SYN f))) (byte_of_Z (pack_byte13 f)).

(** The first 19 bytes of the header of [main], with no spare capacity. *)
Definition short_sample : Packet :=
  mkPacket (of_bytes (firstn 19 (elems (Header sample)))).

(** An accessor on the bytes [lo, hi) returns exactly when [hi] is within
    the capacity of the buffer; otherwise it panics on the slice bounds. *)
Definition returns_within {A : Type} (r : result A) (hi : nat) (p : Packet) : Prop :=
  ((hi <= cap (Header p))%nat -> returns r) /\
  ((cap (Header p) < hi)%nat -> r = Panic SliceBoundsOutOfRange).

(** The backing array of the header from the start of the slice: its
    elements followed by its spare capacity. *)
Definition backing (p : Packet) : list byte :=
  elems (Header p) ++ spare (Header p).

(** Byte [i] of the backing array (0 outside of it). *)
Definition backing_byte (p : Packet) (i : nat) : byte := nth i (backing p) x00.

(** The bytes of the backing array at the indices [lo, hi). *)
Definition backing_between (p : Packet) (lo hi : nat) : list byte :=
  firstn (hi - lo) (skipn lo (backing p)).

(* ================================================================== *)
(** ** Basic facts: bytes, wrap-around, disjoint bit-or *)
(* ================================================================== *)

Lemma u8_range (b : byte) : 0 <= u8 b < 256.
Proof.
  unfold u8. pose proof (Byte.to_N_bounded b) as H. lia.
Qed.

Lemma wrap_small (w x : Z) : 0 <= x < 2 ^ w -> wrap w x = x.
Proof. intros H. unfold wrap. apply Z.mod_small. exact H. Qed.

(** Or-ing a value below 2^k with a multiple of 2^k adds them. *)
Lemma lor_shifted (k lo hi : Z) :
  0 <= k -> 0 <= lo < 2 ^ k -> Z.lor lo (hi * 2 ^ k) = lo + hi * 2 ^ k.
Proof.
  intros Hk Hlo.
  assert (Hland : Z.land lo (hi * 2 ^ k) = 0).
  { apply Z.bits_inj'. intros n Hn.
    rewrite Z.land_spec, Z.bits_0.
    destruct (Z.ltb_spec n k) as [Hlt | Hge].
    - rewrite Z.mul_pow2_bits_low by lia. apply andb_false_r.
    - destruct (Z.eq_dec lo 0) as [-> | Hne].
      + rewrite Z.bits_0. reflexivity.
      + rewrite (Z.bits_above_log2 lo n); [reflexivity | lia |].
        apply Z.log2_lt_pow2; [lia |].
        apply Z.lt_le_trans with (2 ^ k); [lia |].
        apply Z.pow_le_mono_r; lia. }
  rewrite Z.add_nocarry_lxor by exact Hland.
  symmetry. apply Z.lxor_lor. exact Hland.
Qed.

Lemma Uint16_value (b0 b1 : byte) :
  Z.lor (to_uint16 (u8 b1)) (to_uint16 (Z.shiftl (to_uint16 (u8 b0)) 8))
  = u8 b0 * 256 + u8 b1.
Proof.
  pose proof (u8_range b0). pose proof (u8_range b1).
  unfold to_uint16.
  rewrite (wrap_small 16 (u8 b0)), (wrap_small 16 (u8 b1)) by lia.
  rewrite Z.shiftl_mul_pow2 by lia.
  rewrite wrap_small by lia.
  rewrite lor_shifted by lia. lia.
Qed.

Lemma Uint32_value (b0 b1 b2 b3 : byte) :
  Z.lor (Z.lor (Z.lor (to_uint32 (u8 b3))
                      (to_uint32 (Z.shiftl (to_uint32 (u8 b2)) 8)))
               (to_uint32 (Z.shiftl (to_uint32 (u8 b1)) 16)))
        (to_uint32 (Z.shiftl (to_uint32 (u8 b0)) 24))
  = ((u8 b0 * 256 + u8 b1) * 256 + u8 b2) * 256 + u8 b3.
Proof.
  pose proof (u8_range b0). pose proof (u8_range b1).
  pose proof (u8_range b2). pose proof (u8_range b3).
  unfold to_uint32.
  rewrite (wrap_small 32 (u8 b0)), (wrap_small 32 (u8 b1)),
          (wrap_small 32 (u8 b2)), (wrap_small 32 (u8 b3)) by lia.
  rewrite !Z.shiftl_mul_pow2 by lia.
  rewrite !wrap_small by lia.
  rewrite (lor_shifted 8) by lia.
  rewrite (lor_shifted 16) by lia.
  rewrite (lor_shifted 24) by lia.
  lia.
Qed.

(** A buffer of at least 20 bytes starts with 20 bytes. *)
Lemma header_prefix (l : list byte) :
  (20 <= List.length l)%nat ->
  exists b0 b1 b2 b3 b4 b5 b6 b7 b8 b9 b10 b11 b12 b13 b14 b15 b16 b17 b18 b19 rest,
    l = b0 :: b1 :: b2 :: b3 :: b4 :: b5 :: b6 :: b7 :: b8 :: b9 :: b10 :: b11
        :: b12 :: b13 :: b14 :: b15 :: b16 :: b17 :: b18 :: b19 :: rest.
Proof.
  intros H.
  do 20 (destruct l as [| ? l]; [simpl in H; lia |]).
  repeat eexists.
Qed.

Ltac header_bytes p H :=
  let l := fresh "l" in
  let sp := fresh "sp" in
  destruct p as [[l sp]]; unfold len in H; simpl in H;
  destruct (header_prefix l H)
    as (? & ? & ? & ? & ? & ? & ? & ? & ? & ? & ? & ? & ?
        & ? & ? & ? & ? & ? & ? & ? & ? & ->).

(* ================================================================== *)
(** ** The sample header of main *)
(* ================================================================== *)

(** C1 (as amended): decoding the 20-byte sample header
    b7 4e 01 bb b1 46 a4 61 00 00 00 00 a0 02 fa f0 9b ba 00 00 yields
    SourcePort 46926, DestinationPort 443, SequenceNumber 2974196833
    (0xb146a461), AckNumber 0, DO 10, RSV 0, all six flags false,
    Window 64240, Checksum 39866 and UrgentPointer 0. *)
Theorem main_sample_decodes :
  SourcePort sample = Ok 46926 /\
  DestinationPort sample = Ok 443 /\
  SequenceNumber sample = Ok 2974196833 /\
  AckNumber sample = Ok 0 /\
  DO sample = Ok 10 /\
  RSV sample = Ok 0 /\
  Flags sample = Ok (mkFlags false false false false false false) /\
  Window sample = Ok 64240 /\
  Checksum sample = Ok 39866 /\
  UrgentPointer sample = Ok 0.
Proof. repeat split; vm_compute; reflexivity. Qed.

(** C1 (as stated) fails: the sequence number of the sample header is not
    2972860513, so the ten values of the claim do not all hold. *)
Lemma sequence_number_as_stated_fails :
  ~ (SourcePort sample = Ok 46926 /\
     DestinationPort sample = Ok 443 /\
     SequenceNumber sample = Ok 2972860513 /\
     AckNumber sample = Ok 0 /\
     DO sample = Ok 10 /\
     RSV sample = Ok 0 /\
     Flags sample = Ok (mkFlags false false false false false false) /\
     Window sample = Ok 64240 /\
     Checksum sample = Ok 39866 /\
     UrgentPointer sample = Ok 0).
Proof.
  intros (_ & _ & Hseq & _).
  vm_compute in Hseq. discriminate Hseq.
Qed.

(* ================================================================== *)
(** ** Multi-byte fields are big-endian *)
(* ================================================================== *)

(** C8: for every buffer of at least 20 bytes, SourcePort, DestinationPort,
    Window, Checksum and UrgentPointer are the unsigned big-endian value of
    bytes [0,2), [2,4), [14,16), [16,18) and [18,20), and SequenceNumber
    and AckNumber the unsigned big-endian value of bytes [4,8) and [8,12). *)
Theorem multi_byte_fields_big_endian (p : Packet) :
  (20 <= len (Header p))%nat ->
  SourcePort p      = Ok (big_endian (bytes_between p 0 2)) /\
  DestinationPort p = Ok (big_endian (bytes_between p 2 4)) /\
  Window p          = Ok (big_endian (bytes_between p 14 16)) /\
  Checksum p        = Ok (big_endian (bytes_between p 16 18)) /\
  UrgentPointer p   = Ok (big_endian (bytes_between p 18 20)) /\
  SequenceNumber p  = Ok (big_endian (bytes_between p 4 8)) /\
  AckNumber p       = Ok (big_endian (bytes_between p 8 12)).
Proof.
  intros H. header_bytes p H.
  unfold SourcePort, DestinationPort, Window, Checksum, UrgentPointer,
         SequenceNumber, AckNumber, bytes_between, big_endian.
  cbn -[Z.lor Z.shiftl to_uint16 to_uint32 u8 Z.mul Z.add].
  rewrite !Uint16_value, !Uint32_value.
  repeat split.
Qed.

Lemma multi_byte_fields_big_endian_witness :
  (20 <= len (Header sample))%nat /\
  SourcePort sample = Ok (big_endian (bytes_between sample 0 2)).
Proof.
  split.
  - unfold len; simpl; lia.
  - apply (multi_byte_fields_big_endian sample).
    unfold len; simpl; lia.
Defined.

(* ================================================================== *)
(** ** What the string-based extraction computes *)
(* ================================================================== *)

(** [%b] prints no leading zeros: the text of a byte has 8 characters
    only when the byte is at least 128. *)
Lemma Sprintf_b_length (b : byte) :
  Z.of_nat (String.length (fmt.Sprintf_b (Byte.to_N b)))
  = if u8 b =? 0 then 1 else Z.log2 (u8 b) + 1.
Proof. destruct b; reflexivity. Qed.

(** [%.1b] asks for at least one digit, which [%b] prints anyway. *)
Lemma Sprintf_prec_1 (b : byte) :
  fmt.Sprintf_prec_b 1 (Byte.to_N b) = fmt.Sprintf_b (Byte.to_N b).
Proof. destruct b; reflexivity. Qed.

(** [%.8b] of a byte always has 8 characters. *)
Lemma Sprintf_prec_8_length (b : byte) :
  String.length (fmt.Sprintf_prec_b 8 (Byte.to_N b)) = 8%nat.
Proof. destruct b; reflexivity. Qed.

Lemma DO_digits (b : byte) :
  (d <- str_slice (fmt.Sprintf_b (Byte.to_N b)) 0 4 ;;
   Ok (to_uint8 (fst (strconv.ParseInt d 2 5))))
  = if u8 b <? 8 then Panic SliceBoundsOutOfRange
    else Ok (Z.shiftr (u8 b) (Z.log2 (u8 b) - 3)).
Proof. destruct b; reflexivity. Qed.

Lemma RSV_digits (b : byte) :
  (d <- str_slice (fmt.Sprintf_b (Byte.to_N b)) 4 7 ;;
   Ok (to_uint8 (fst (strconv.ParseInt d 2 4))))
  = if u8 b <? 64 then Panic SliceBoundsOutOfRange
    else Ok (Z.land (Z.shiftr (u8 b) (Z.log2 (u8 b) - 6)) 7).
Proof. destruct b; reflexivity. Qed.

Lemma fg1_char (b : byte) :
  str_slice (fmt.Sprintf_prec_b 1 (Byte.to_N b)) 7 8
  = if u8 b <? 128 then Panic SliceBoundsOutOfRange
    else Ok (bit_char (Z.testbit (u8 b) 0)).
Proof. destruct b; reflexivity. Qed.

Lemma fg2_char (b : byte) (i : nat) :
  (i < 8)%nat ->
  str_slice (fmt.Sprintf_prec_b 8 (Byte.to_N b)) i (S i)
  = Ok (bit_char (msb0_bit b (Z.of_nat i))).
Proof.
  intros Hi.
  do 8 (destruct i as [| i]; [destruct b; reflexivity |]).
  lia.
Qed.

Lemma set_if_bit_char (b : bool) : set_if (str_neq (bit_char b) "0") false = b.
Proof. destruct b; reflexivity. Qed.

(** DO on a buffer of at least 20 bytes: a panic when byte 12 is below 8,
    otherwise the four leading significant bits of byte 12. *)
Lemma DO_eq (p : Packet) :
  (20 <= len (Header p))%nat ->
  DO p = if u8 (byte_at p 12) <? 8 then Panic SliceBoundsOutOfRange
         else Ok (Z.shiftr (u8 (byte_at p 12)) (Z.log2 (u8 (byte_at p 12)) - 3)).
Proof.
  intros H. header_bytes p H.
  unfold DO, byte_at.
  cbn -[str_slice fmt.Sprintf_b strconv.ParseInt to_uint8 u8 Z.ltb Z.shiftr Z.log2 Z.sub].
  apply DO_digits.
Qed.

(** RSV on a buffer of at least 20 bytes: a panic when byte 12 is below
    64, otherwise the characters 4 to 6 of its text without leading zeros. *)
Lemma RSV_eq (p : Packet) :
  (20 <= len (Header p))%nat ->
  RSV p = if u8 (byte_at p 12) <? 64 then Panic SliceBoundsOutOfRange
          else Ok (Z.land (Z.shiftr (u8 (byte_at p 12))
                                    (Z.log2 (u8 (byte_at p 12)) - 6)) 7).
Proof.
  intros H. header_bytes p H.
  unfold RSV, byte_at.
  cbn -[str_slice fmt.Sprintf_b strconv.ParseInt to_uint8 u8 Z.ltb Z.shiftr
        Z.log2 Z.sub Z.land].
  apply RSV_digits.
Qed.

(** Flags on a buffer of at least 20 bytes: a panic when byte 12 is below
    128, otherwise the flags of the documented layout. *)
Lemma Flags_eq (p : Packet) :
  (20 <= len (Header p))%nat ->
  Flags p = if u8 (byte_at p 12) <? 128 then Panic SliceBoundsOutOfRange
            else Ok (documented_flags (byte_at p 12) (byte_at p 13)).
Proof.
  intros H. header_bytes p H.
  unfold Flags, byte_at, documented_flags.
  cbn -[str_slice fmt.Sprintf_prec_b str_neq u8 Z.ltb Z.testbit msb0_bit].
  rewrite fg1_char.
  rewrite (fg2_char _ 0), (fg2_char _ 1), (fg2_char _ 2),
          (fg2_char _ 3), (fg2_char _ 4) by lia.
  destruct (u8 _ <? 128); [reflexivity |].
  cbn -[str_neq u8 Z.testbit msb0_bit bit_char].
  rewrite !set_if_bit_char. reflexivity.
Qed.

(** Where byte 12 has its most significant bit set, its text has all 8
    digits and the three accessors follow the documented layout. *)
Lemma DO_msb_set (p : Packet) :
  (20 <= len (Header p))%nat ->
  128 <= u8 (byte_at p 12) ->
  DO p = Ok (top_nibble (byte_at p 12)).
Proof.
  intros H Hb. rewrite (DO_eq p H).
  apply Z.leb_le in Hb. revert Hb.
  destruct (byte_at p 12); intros Hb;
    first [reflexivity | vm_compute in Hb; discriminate Hb].
Qed.

Lemma RSV_msb_set (p : Packet) :
  (20 <= len (Header p))%nat ->
  128 <= u8 (byte_at p 12) ->
  RSV p = Ok (bits_4_to_6 (byte_at p 12)).
Proof.
  intros H Hb. rewrite (RSV_eq p H).
  apply Z.leb_le in Hb. revert Hb.
  destruct (byte_at p 12); intros Hb;
    first [reflexivity | vm_compute in Hb; discriminate Hb].
Qed.

Lemma Flags_msb_set (p : Packet) :
  (20 <= len (Header p))%nat ->
  128 <= u8 (byte_at p 12) ->
  Flags p = Ok (documented_flags (byte_at p 12) (byte_at p 13)).
Proof.
  intros H Hb. rewrite (Flags_eq p H).
  destruct (Z.ltb_spec (u8 (byte_at p 12)) 128); [lia | reflexivity].
Qed.

(** Whenever DO and RSV return, the value is within the width of the
    field; DO never returns less than 8. *)
Lemma DO_result_range (p : Packet) (v : Z) :
  (20 <= len (Header p))%nat -> DO p = Ok v -> 8 <= v <= 15.
Proof.
  intros H. rewrite (DO_eq p H).
  destruct (byte_at p 12); vm_compute; intros Hv;
    first [discriminate Hv | injection Hv as <-; split; discriminate].
Qed.

Lemma RSV_result_range (p : Packet) (v : Z) :
  (20 <= len (Header p))%nat -> RSV p = Ok v -> 0 <= v <= 7.
Proof.
  intros H. rewrite (RSV_eq p H).
  destruct (byte_at p 12); vm_compute; intros Hv;
    first [discriminate Hv | injection Hv as <-; split; discriminate].
Qed.

(** X6: the error that DO and RSV drop from [strconv.ParseInt] never
    occurs: the digits they cut out of the text of a byte always parse
    within the given bit size. *)
Lemma ParseInt_error_unreachable (b : byte) (d : string) :
  (str_slice (fmt.Sprintf_b (Byte.to_N b)) 0 4 = Ok d ->
   snd (strconv.ParseInt d 2 5) = None) /\
  (str_slice (fmt.Sprintf_b (Byte.to_N b)) 4 7 = Ok d ->
   snd (strconv.ParseInt d 2 4) = None).
Proof.
  split; destruct b; intros Hd; vm_compute in Hd;
    first [discriminate Hd | injection Hd as <-; vm_compute; reflexivity].
Qed.

Lemma ParseInt_error_unreachable_witness :
  snd (strconv.ParseInt "1010" 2 5) = None /\
  snd (strconv.ParseInt "000" 2 4) = None.
Proof.
  split.
  - apply (proj1 (ParseInt_error_unreachable xa0 "1010")). reflexivity.
  - apply (proj2 (ParseInt_error_unreachable xa0 "000")). reflexivity.
Defined.

(* ================================================================== *)
(** ** Bytes 12 and 13 on headers whose data offset is below 8 *)
(* ================================================================== *)

(** C2: DO is specified as the most significant nibble of byte 12.  On the
    header of [main] with byte 12 set to 0x50 (data offset 5, the value of
    a header without options) DO returns 10, not 5; with byte 12 set to
    0x00 it panics. *)
Theorem DO_of_data_offset_5 :
  DO (sample_with x50 x02) = Ok 10 /\
  top_nibble (byte_at (sample_with x50 x02) 12) = 5 /\
  DO (sample_with x00 x02) = Panic SliceBoundsOutOfRange.
Proof. repeat split. Qed.

(** C3: RSV is specified as bits 4 to 6 of byte 12.  On the header of
    [main] with byte 12 set to 0x51 RSV returns 1 while those bits are 0;
    with byte 12 set to 0x30 it panics. *)
Theorem RSV_of_byte12_0x51 :
  RSV (sample_with x51 x02) = Ok 1 /\
  bits_4_to_6 (byte_at (sample_with x51 x02) 12) = 0 /\
  RSV (sample_with x30 x02) = Panic SliceBoundsOutOfRange.
Proof. repeat split. Qed.

(** C4: SYN is specified as the least significant bit of byte 12.  On the
    header of [main] with byte 12 set to 0x01 that bit is 1 and Flags
    panics instead of reporting SYN. *)
Theorem Flags_of_byte12_0x01 :
  Z.testbit (u8 (byte_at (sample_with x01 x02) 12)) 0 = true /\
  Flags (sample_with x01 x02) = Panic SliceBoundsOutOfRange.
Proof. repeat split. Qed.

(** C5: ACK, RST, FIN, PSH and URG are specified as the five most
    significant bits of byte 13.  On the header of [main] with byte 12 set
    to 0x01 and byte 13 to 0xF8 all five bits are 1 and Flags panics
    instead of reporting them. *)
Theorem Flags_of_byte13_0xF8 :
  documented_flags x01 xf8 = mkFlags true true true true true true /\
  Flags (sample_with x01 xf8) = Panic SliceBoundsOutOfRange.
Proof. repeat split. Qed.

(** Whenever Flags returns, the six flags are those of the documented
    layout. *)
Lemma Flags_when_returns (p : Packet) (f : FlagSet) :
  (20 <= len (Header p))%nat ->
  Flags p = Ok f ->
  f = documented_flags (byte_at p 12) (byte_at p 13).
Proof.
  intros H. rewrite (Flags_eq p H).
  destruct (u8 (byte_at p 12) <? 128); intros Hf;
    [discriminate Hf | injection Hf as <-; reflexivity].
Qed.

(** C7: DO and RSV are specified as total on buffers of at least 20
    bytes.  On the header of [main] with byte 12 set to 0x00 both panic. *)
Theorem DO_RSV_of_byte12_zero :
  (20 <= len (Header (sample_with x00 x02)))%nat /\
  DO (sample_with x00 x02) = Panic SliceBoundsOutOfRange /\
  RSV (sample_with x00 x02) = Panic SliceBoundsOutOfRange.
Proof. repeat split. unfold len; simpl; lia. Qed.

(* ================================================================== *)
(** ** Round trip through the documented packing of bytes 12 and 13 *)
(* ================================================================== *)

(** C6: the round trip is specified for every DataOffset in 0..15.  For
    DataOffset 5, Reserved 0 and no flag set, the packed bytes are 0x50 and
    0x00; DO returns 10 instead of 5 and Flags panics. *)
Theorem roundtrip_of_data_offset_5 :
  let f := mkFlags false false false false false false in
  pack_byte12 5 0 (SYN f) = 80 /\
  pack_byte13 f = 0 /\
  DO (packed 5 0 f) = Ok 10 /\
  RSV (packed 5 0 f) = Ok 0 /\
  Flags (packed 5 0 f) = Panic SliceBoundsOutOfRange.
Proof. repeat split. Qed.

Lemma small_range_cases (lo hi x : Z) :
  lo <= x <= hi -> In x (map (fun i => lo + Z.of_nat i) (seq 0 (Z.to_nat (hi - lo + 1)))).
Proof.
  intros H. apply in_map_iff. exists (Z.to_nat (x - lo)). split; [lia |].
  apply in_seq. lia.
Qed.

(** The round trip does hold for the data offsets 8 to 15, whose byte 12
    has its most significant bit set. *)
Lemma roundtrip_of_data_offset_at_least_8 (do rsv : Z) (f : FlagSet) :
  8 <= do <= 15 -> 0 <= rsv <= 7 ->
  DO (packed do rsv f) = Ok do /\
  RSV (packed do rsv f) = Ok rsv /\
  Flags (packed do rsv f) = Ok f.
Proof.
  intros Hdo Hrsv.
  apply small_range_cases in Hdo. apply small_range_cases in Hrsv.
  cbv [map seq Z.to_nat Z.sub Z.add Z.opp Z.pos_sub Z.succ_double Z.pred_double
       Z.double Pos.to_nat Pos.iter_op Nat.add Pos.pred_double Pos.add Pos.succ
       Z.of_nat Pos.of_succ_nat In] in Hdo, Hrsv.
  destruct f as [syn ack rst fin psh urg].
  assert (Hflags : forall b12, 128 <= u8 b12 ->
            Flags (sample_with b12 (byte_of_Z (pack_byte13 (mkFlags syn ack rst fin psh urg))))
            = Ok (mkFlags (Z.testbit (u8 b12) 0) ack rst fin psh urg)).
  { intros b12 Hb. rewrite Flags_msb_set; [| unfold len; simpl; lia | exact Hb].
    destruct ack, rst, fin, psh, urg; reflexivity. }
  unfold packed.
  repeat (destruct Hdo as [<- | Hdo]; [| try contradiction]);
  repeat (destruct Hrsv as [<- | Hrsv]; [| try contradiction]);
  (split; [destruct syn; reflexivity |
   split; [destruct syn; reflexivity |
   rewrite Hflags; [destruct syn; reflexivity | destruct syn; vm_compute; discriminate]]]).
Qed.

(* ================================================================== *)
(** ** Buffers shorter than 20 bytes *)
(* ================================================================== *)

Lemma reslice_panic (s : slice) (lo hi : nat) :
  (cap s < hi)%nat -> reslice s lo hi = Panic SliceBoundsOutOfRange.
Proof.
  intros H. unfold reslice.
  destruct (Nat.leb_spec hi (cap s)); [lia |].
  rewrite andb_false_r. reflexivity.
Qed.

Lemma reslice_ok (s : slice) (lo hi : nat) :
  (lo <= hi)%nat -> (hi <= cap s)%nat ->
  exists s', reslice s lo hi = Ok s' /\ len s' = (hi - lo)%nat.
Proof.
  intros Hlo Hhi. unfold reslice.
  destruct (Nat.leb_spec lo hi); [| lia].
  destruct (Nat.leb_spec hi (cap s)); [| lia].
  simpl. eexists. split; [reflexivity |].
  unfold len; simpl. rewrite length_firstn, length_skipn, length_app.
  unfold cap in Hhi. lia.
Qed.

Lemma Uint16_returns (s : slice) :
  (2 <= len s)%nat -> returns (BigEndian.Uint16 s).
Proof.
  destruct s as [[| a [| b l]] sp]; unfold len; simpl; intros H; try lia.
  eexists. reflexivity.
Qed.

Lemma Uint32_returns (s : slice) :
  (4 <= len s)%nat -> returns (BigEndian.Uint32 s).
Proof.
  destruct s as [[| a [| b [| c [| d l]]]] sp]; unfold len; simpl; intros H; try lia.
  eexists. reflexivity.
Qed.

Lemma field16_returns_within (p : Packet) (lo : nat) :
  returns_within (s <- reslice (Header p) lo (lo + 2) ;; BigEndian.Uint16 s) (lo + 2) p.
Proof.
  split; intros H.
  - destruct (reslice_ok (Header p) lo (lo + 2)) as (s' & -> & Hlen); [lia | exact H |].
    simpl. apply Uint16_returns. lia.
  - rewrite reslice_panic by exact H. reflexivity.
Qed.

Lemma field32_returns_within (p : Packet) (lo : nat) :
  returns_within (s <- reslice (Header p) lo (lo + 4) ;; BigEndian.Uint32 s) (lo + 4) p.
Proof.
  split; intros H.
  - destruct (reslice_ok (Header p) lo (lo + 4)) as (s' & -> & Hlen); [lia | exact H |].
    simpl. apply Uint32_returns. lia.
  - rewrite reslice_panic by exact H. reflexivity.
Qed.

(** C9 (as amended): the code has no length check and no BufferTooShort
    error.  A buffer of exactly 20 bytes decodes through the seven
    multi-byte accessors.  On any buffer, each of these accessors returns
    a value when the end of its byte range is within the capacity of the
    buffer (for a buffer without spare capacity: within its length) and
    otherwise panics on the slice bounds; DO, RSV and Flags panic on the
    slice bounds when the capacity is below 14. *)
Theorem decoding_without_length_check (p : Packet) :
  (len (Header p) = 20%nat ->
   returns (SourcePort p) /\ returns (DestinationPort p) /\
   returns (SequenceNumber p) /\ returns (AckNumber p) /\
   returns (Window p) /\ returns (Checksum p) /\ returns (UrgentPointer p)) /\
  returns_within (SourcePort p) 2 p /\
  returns_within (DestinationPort p) 4 p /\
  returns_within (SequenceNumber p) 8 p /\
  returns_within (AckNumber p) 12 p /\
  returns_within (Window p) 16 p /\
  returns_within (Checksum p) 18 p /\
  returns_within (UrgentPointer p) 20 p /\
  ((cap (Header p) < 14)%nat ->
   DO p = Panic SliceBoundsOutOfRange /\
   RSV p = Panic SliceBoundsOutOfRange /\
   Flags p = Panic SliceBoundsOutOfRange).
Proof.
  pose proof (field16_returns_within p 0) as H0.
  pose proof (field16_returns_within p 2) as H2.
  pose proof (field32_returns_within p 4) as H4.
  pose proof (field32_returns_within p 8) as H8.
  pose proof (field16_returns_within p 14) as H14.
  pose proof (field16_returns_within p 16) as H16.
  pose proof (field16_returns_within p 18) as H18.
  simpl Nat.add in *.
  split; [| repeat (split; [assumption |])].
  - intros Hlen.
    assert (Hcap : (20 <= cap (Header p))%nat) by (unfold len in Hlen; unfold cap; lia).
    repeat split;
      [apply H0 | apply H2 | apply H4 | apply H8 | apply H14 | apply H16 | apply H18];
      lia.
  - intros Hcap. unfold DO, RSV, Flags.
    rewrite !reslice_panic by exact Hcap. repeat split.
Qed.

Lemma decoding_without_length_check_witness :
  returns (UrgentPointer sample) /\
  UrgentPointer short_sample = Panic SliceBoundsOutOfRange /\
  returns (Checksum short_sample).
Proof.
  split; [| split].
  - apply (decoding_without_length_check sample). reflexivity.
  - apply (decoding_without_length_check short_sample). unfold cap; simpl; lia.
  - apply (decoding_without_length_check short_sample). unfold cap; simpl; lia.
Defined.

(** C9 (as stated) fails: on a buffer of 19 bytes SourcePort does not fail
    at all, UrgentPointer ends in a run-time panic, and no accessor fails
    in any other way. *)
Lemma short_buffer_has_no_error_result :
  (len (Header short_sample) <= 19)%nat /\
  SourcePort short_sample = Ok 46926 /\
  UrgentPointer short_sample = Panic SliceBoundsOutOfRange /\
  ~ (~ returns (SourcePort short_sample) /\ ~ panics (UrgentPointer short_sample)).
Proof.
  split; [unfold len; simpl; lia |].
  split; [vm_compute; reflexivity |].
  split; [vm_compute; reflexivity |].
  intros [Hret _]. apply Hret. exists 46926. vm_compute. reflexivity.
Qed.

(* ================================================================== *)
(** ** Nothing beyond index 19 is read *)
(* ================================================================== *)

(** C10: for buffers of at least 20 bytes, the result of every accessor is
    unchanged when the bytes at indices 20 and beyond (and the spare
    capacity) are altered: two buffers with the same first 20 bytes decode
    alike. *)
Theorem accessors_read_first_20_bytes (p q : Packet) :
  (20 <= len (Header p))%nat ->
  (20 <= len (Header q))%nat ->
  firstn 20 (elems (Header p)) = firstn 20 (elems (Header q)) ->
  SourcePort p = SourcePort q /\
  DestinationPort p = DestinationPort q /\
  SequenceNumber p = SequenceNumber q /\
  AckNumber p = AckNumber q /\
  DO p = DO q /\
  RSV p = RSV q /\
  Flags p = Flags q /\
  Window p = Window q /\
  Checksum p = Checksum q /\
  UrgentPointer p = UrgentPointer q.
Proof.
  intros Hp Hq Heq.
  rewrite (DO_eq p Hp), (DO_eq q Hq), (RSV_eq p Hp), (RSV_eq q Hq),
          (Flags_eq p Hp), (Flags_eq q Hq).
  header_bytes p Hp. header_bytes q Hq.
  simpl in Heq. injection Heq as -> -> -> -> -> -> -> -> -> -> -> -> -> -> -> -> -> -> -> ->.
  unfold SourcePort, DestinationPort, SequenceNumber, AckNumber,
         Window, Checksum, UrgentPointer.
  repeat split; reflexivity.
Qed.

Lemma accessors_read_first_20_bytes_witness :
  DO sample = DO (mkPacket (mkSlice (elems (Header sample) ++ [xff; x01]) [x07])).
Proof.
  apply (accessors_read_first_20_bytes sample
           (mkPacket (mkSlice (elems (Header sample) ++ [xff; x01]) [x07]))).
  - unfold len; simpl; lia.
  - unfold len; simpl; lia.
  - reflexivity.
Defined.

(* ================================================================== *)
(** ** Buffers of any length and capacity *)
(* ================================================================== *)

Lemma cap_backing (p : Packet) : cap (Header p) = List.length (backing p).
Proof. unfold cap, backing. rewrite length_app. reflexivity. Qed.

Lemma window2 (l : list byte) (lo : nat) :
  (lo + 2 <= List.length l)%nat ->
  firstn 2 (skipn lo l) = [nth lo l x00; nth (S lo) l x00].
Proof.
  revert l. induction lo as [| lo IH]; intros l H.
  - destruct l as [| a [| b l]]; simpl in *; try lia. reflexivity.
  - destruct l as [| a l]; simpl in *; [lia |]. apply IH. lia.
Qed.

Lemma window4 (l : list byte) (lo : nat) :
  (lo + 4 <= List.length l)%nat ->
  firstn 4 (skipn lo l)
  = [nth lo l x00; nth (S lo) l x00; nth (S (S lo)) l x00; nth (S (S (S lo))) l x00].
Proof.
  revert l. induction lo as [| lo IH]; intros l H.
  - destruct l as [| a [| b [| c [| d l]]]]; simpl in *; try lia. reflexivity.
  - destruct l as [| a l]; simpl in *; [lia |]. apply IH. lia.
Qed.

(** Re-slicing within the capacity gives the window of the backing array. *)
Lemma reslice_window (p : Packet) (lo hi : nat) :
  (lo <= hi)%nat -> (hi <= cap (Header p))%nat ->
  exists sp, reslice (Header p) lo hi = Ok (mkSlice (backing_between p lo hi) sp).
Proof.
  intros Hlo Hhi. unfold reslice.
  destruct (Nat.leb_spec lo hi); [| lia].
  destruct (Nat.leb_spec hi (cap (Header p))); [| lia].
  simpl. eexists. reflexivity.
Qed.

(** Re-slicing looks at the backing array only, not at the length. *)
Lemma reslice_backing (p q : Packet) (lo hi : nat) :
  backing p = backing q ->
  reslice (Header p) lo hi = reslice (Header q) lo hi.
Proof.
  intros H. unfold reslice.
  rewrite (cap_backing p), (cap_backing q).
  fold (backing p). fold (backing q). rewrite H. reflexivity.
Qed.

Lemma bitfield_window (p : Packet) :
  (14 <= cap (Header p))%nat ->
  exists sp, reslice (Header p) 12 14
             = Ok (mkSlice [backing_byte p 12; backing_byte p 13] sp).
Proof.
  intros H. destruct (reslice_window p 12 14) as (sp & E); [lia | exact H |].
  exists sp. rewrite E. unfold backing_between. simpl Nat.sub.
  rewrite window2 by (rewrite <- cap_backing; lia). reflexivity.
Qed.

Lemma field16_value (p : Packet) (lo : nat) :
  (lo + 2 <= cap (Header p))%nat ->
  (s <- reslice (Header p) lo (lo + 2) ;; BigEndian.Uint16 s)
  = Ok (big_endian (backing_between p lo (lo + 2))).
Proof.
  intros H. destruct (reslice_window p lo (lo + 2)) as (sp & ->); [lia | exact H |].
  unfold backing_between. replace (lo + 2 - lo)%nat with 2%nat by lia.
  rewrite window2 by (rewrite <- cap_backing; lia).
  unfold big_endian.
  cbn -[Z.lor Z.shiftl to_uint16 u8 Z.mul Z.add].
  rewrite Uint16_value. reflexivity.
Qed.

Lemma field32_value (p : Packet) (lo : nat) :
  (lo + 4 <= cap (Header p))%nat ->
  (s <- reslice (Header p) lo (lo + 4) ;; BigEndian.Uint32 s)
  = Ok (big_endian (backing_between p lo (lo + 4))).
Proof.
  intros H. destruct (reslice_window p lo (lo + 4)) as (sp & ->); [lia | exact H |].
  unfold backing_between. replace (lo + 4 - lo)%nat with 4%nat by lia.
  rewrite window4 by (rewrite <- cap_backing; lia).
  unfold big_endian.
  cbn -[Z.lor Z.shiftl to_uint32 u8 Z.mul Z.add].
  rewrite Uint32_value. reflexivity.
Qed.

Lemma DO_bytes (p : Packet) :
  (14 <= cap (Header p))%nat ->
  DO p = (d <- str_slice (fmt.Sprintf_b (Byte.to_N (backing_byte p 12))) 0 4 ;;
          Ok (to_uint8 (fst (strconv.ParseInt d 2 5)))).
Proof.
  intros H. destruct (bitfield_window p H) as (sp & E).
  unfold DO. rewrite E. reflexivity.
Qed.

Lemma RSV_bytes (p : Packet) :
  (14 <= cap (Header p))%nat ->
  RSV p = (d <- str_slice (fmt.Sprintf_b (Byte.to_N (backing_byte p 12))) 4 7 ;;
           Ok (to_uint8 (fst (strconv.ParseInt d 2 4)))).
Proof.
  intros H. destruct (bitfield_window p H) as (sp & E).
  unfold RSV. rewrite E. reflexivity.
Qed.

Lemma Flags_bytes (p : Packet) :
  (14 <= cap (Header p))%nat ->
  Flags p = if u8 (backing_byte p 12) <? 128 then Panic SliceBoundsOutOfRange
            else Ok (documented_flags (backing_byte p 12) (backing_byte p 13)).
Proof.
  intros H. destruct (bitfield_window p H) as (sp & E).
  unfold Flags, documented_flags. rewrite E.
  cbn -[str_slice fmt.Sprintf_prec_b str_neq u8 Z.ltb Z.testbit msb0_bit].
  rewrite fg1_char.
  rewrite (fg2_char _ 0), (fg2_char _ 1), (fg2_char _ 2),
          (fg2_char _ 3), (fg2_char _ 4) by lia.
  destruct (u8 _ <? 128); [reflexivity |].
  cbn -[str_neq u8 Z.testbit msb0_bit bit_char].
  rewrite !set_if_bit_char. reflexivity.
Qed.

Lemma bitfields_panic_below_14 (p : Packet) :
  (cap (Header p) < 14)%nat ->
  DO p = Panic SliceBoundsOutOfRange /\
  RSV p = Panic SliceBoundsOutOfRange /\
  Flags p = Panic SliceBoundsOutOfRange.
Proof.
  intros H. unfold DO, RSV, Flags.
  rewrite !reslice_panic by exact H. repeat split.
Qed.

Lemma below_128_bit7 (b : byte) : (u8 b <? 128) = negb (Z.testbit (u8 b) 7).
Proof. destruct b; reflexivity. Qed.

Lemma msb0_bit_shiftr (b : byte) (i : Z) :
  0 <= i <= 4 -> msb0_bit b i = Z.testbit (Z.shiftr (u8 b) 3) (4 - i).
Proof.
  intros Hi. unfold msb0_bit. rewrite Z.shiftr_spec by lia.
  f_equal. lia.
Qed.

Lemma Uint16_bounds (s : slice) (v : Z) :
  BigEndian.Uint16 s = Ok v -> 0 <= v < 2 ^ 16.
Proof.
  unfold BigEndian.Uint16, index.
  destruct (nth_error (elems s) 1) as [b1 |]; cbn [bind]; [| discriminate].
  destruct (nth_error (elems s) 0) as [b0 |]; cbn [bind]; [| discriminate].
  intros H. rewrite Uint16_value in H. injection H as <-.
  pose proof (u8_range b0). pose proof (u8_range b1). lia.
Qed.

Lemma Uint32_bounds (s : slice) (v : Z) :
  BigEndian.Uint32 s = Ok v -> 0 <= v < 2 ^ 32.
Proof.
  unfold BigEndian.Uint32, index.
  destruct (nth_error (elems s) 3) as [b3 |]; cbn [bind]; [| discriminate].
  destruct (nth_error (elems s) 2) as [b2 |]; cbn [bind]; [| discriminate].
  destruct (nth_error (elems s) 1) as [b1 |]; cbn [bind]; [| discriminate].
  destruct (nth_error (elems s) 0) as [b0 |]; cbn [bind]; [| discriminate].
  intros H. rewrite Uint32_value in H. injection H as <-.
  pose proof (u8_range b0). pose proof (u8_range b1).
  pose proof (u8_range b2). pose proof (u8_range b3). lia.
Qed.

Lemma bind_Uint16_bounds (r : result slice) (v : Z) :
  (s <- r ;; BigEndian.Uint16 s) = Ok v -> 0 <= v < 2 ^ 16.
Proof. destruct r; simpl; [apply Uint16_bounds | intros H; discriminate H]. Qed.

Lemma bind_Uint32_bounds (r : result slice) (v : Z) :
  (s <- r ;; BigEndian.Uint32 s) = Ok v -> 0 <= v < 2 ^ 32.
Proof. destruct r; simpl; [apply Uint32_bounds | intros H; discriminate H]. Qed.

(* ================================================================== *)
(** ** DO, RSV and Flags on every buffer *)
(* ================================================================== *)

(** X1: on every buffer, DO panics on slice bounds when the capacity is
    below 14 or byte 12 is below 8, and otherwise returns the four leading
    significant bits of byte 12 (its binary text without leading zeros,
    cut after four digits). *)
Theorem DO_on_any_buffer (p : Packet) :
  DO p = if ((cap (Header p) <? 14)%nat || (u8 (backing_byte p 12) <? 8))%bool
         then Panic SliceBoundsOutOfRange
         else Ok (Z.shiftr (u8 (backing_byte p 12))
                           (Z.log2 (u8 (backing_byte p 12)) - 3)).
Proof.
  destruct (Nat.ltb_spec (cap (Header p)) 14) as [Hc | Hc].
  - apply (bitfields_panic_below_14 p Hc).
  - rewrite (DO_bytes p Hc), DO_digits. reflexivity.
Qed.

(** X2: on every buffer, RSV panics on slice bounds when the capacity is
    below 14 or byte 12 is below 64, and otherwise returns the digits 4 to
    6 of the binary text of byte 12 without leading zeros: bits 4..6 when
    byte 12 is at least 128, the three lowest bits when it is 64..127. *)
Theorem RSV_on_any_buffer (p : Packet) :
  RSV p = if ((cap (Header p) <? 14)%nat || (u8 (backing_byte p 12) <? 64))%bool
          then Panic SliceBoundsOutOfRange
          else Ok (Z.land (Z.shiftr (u8 (backing_byte p 12))
                                    (Z.log2 (u8 (backing_byte p 12)) - 6)) 7).
Proof.
  destruct (Nat.ltb_spec (cap (Header p)) 14) as [Hc | Hc].
  - apply (bitfields_panic_below_14 p Hc).
  - rewrite (RSV_bytes p Hc), RSV_digits. reflexivity.
Qed.

(** X3: on every buffer, Flags panics on slice bounds when the capacity is
    below 14 or byte 12 is below 128, and otherwise returns SYN as the
    lowest bit of byte 12 and ACK, RST, FIN, PSH, URG as the five highest
    bits of byte 13. *)
Theorem Flags_on_any_buffer (p : Packet) :
  Flags p = if ((cap (Header p) <? 14)%nat || (u8 (backing_byte p 12) <? 128))%bool
            then Panic SliceBoundsOutOfRange
            else Ok (documented_flags (backing_byte p 12) (backing_byte p 13)).
Proof.
  destruct (Nat.ltb_spec (cap (Header p)) 14) as [Hc | Hc].
  - apply (bitfields_panic_below_14 p Hc).
  - rewrite (Flags_bytes p Hc). reflexivity.
Qed.

(** X4: whenever DO returns, on any buffer, its value is between 8 and
    15: it never reports a data offset of 5, 6 or 7. *)
Theorem DO_never_below_8 (p : Packet) (v : Z) :
  DO p = Ok v -> 8 <= v <= 15.
Proof.
  destruct (Nat.ltb_spec (cap (Header p)) 14) as [Hc | Hc].
  - rewrite (proj1 (bitfields_panic_below_14 p Hc)). discriminate.
  - rewrite (DO_bytes p Hc), DO_digits.
    destruct (backing_byte p 12); vm_compute; intros Hv;
      first [discriminate Hv | injection Hv as <-; split; discriminate].
Qed.

Lemma DO_never_below_8_witness : DO sample = Ok 10 /\ 8 <= 10 <= 15.
Proof.
  split; [reflexivity | apply (DO_never_below_8 sample 10); reflexivity].
Defined.

(** X5: whenever RSV returns, on any buffer, its value is between 0 and 7. *)
Theorem RSV_at_most_7 (p : Packet) (v : Z) :
  RSV p = Ok v -> 0 <= v <= 7.
Proof.
  destruct (Nat.ltb_spec (cap (Header p)) 14) as [Hc | Hc].
  - rewrite (proj1 (proj2 (bitfields_panic_below_14 p Hc))). discriminate.
  - rewrite (RSV_bytes p Hc), RSV_digits.
    destruct (backing_byte p 12); vm_compute; intros Hv;
      first [discriminate Hv | injection Hv as <-; split; discriminate].
Qed.

Lemma RSV_at_most_7_witness :
  RSV (sample_with x51 x02) = Ok 1 /\ 0 <= 1 <= 7.
Proof.
  split; [reflexivity | apply (RSV_at_most_7 (sample_with x51 x02) 1); reflexivity].
Defined.

(** X7: whenever they return, on any buffer, the five 16-bit accessors
    give a value in [0, 2^16) and the two 32-bit accessors a value in
    [0, 2^32). *)
Theorem multi_byte_fields_in_range (p : Packet) (v : Z) :
  (SourcePort p = Ok v -> 0 <= v < 2 ^ 16) /\
  (DestinationPort p = Ok v -> 0 <= v < 2 ^ 16) /\
  (Window p = Ok v -> 0 <= v < 2 ^ 16) /\
  (Checksum p = Ok v -> 0 <= v < 2 ^ 16) /\
  (UrgentPointer p = Ok v -> 0 <= v < 2 ^ 16) /\
  (SequenceNumber p = Ok v -> 0 <= v < 2 ^ 32) /\
  (AckNumber p = Ok v -> 0 <= v < 2 ^ 32).
Proof.
  repeat match goal with |- _ /\ _ => split end;
    first [apply bind_Uint16_bounds | apply bind_Uint32_bounds].
Qed.

Lemma multi_byte_fields_in_range_witness :
  SequenceNumber sample = Ok 2974196833 /\ 0 <= 2974196833 < 2 ^ 32.
Proof.
  split; [reflexivity |].
  destruct (multi_byte_fields_in_range sample 2974196833)
    as (_ & _ & _ & _ & _ & Hseq & _).
  apply Hseq. reflexivity.
Defined.

(* ================================================================== *)
(** ** What the accessors depend on *)
(* ================================================================== *)

(** X8: no accessor looks at the length of the header slice, only at its
    backing array: two packets with the same backing bytes give the same
    result for all ten accessors, whatever their lengths (a slice cut to
    length 0 decodes like the full buffer). *)
Theorem accessors_ignore_length (p q : Packet) :
  backing p = backing q ->
  SourcePort p = SourcePort q /\
  DestinationPort p = DestinationPort q /\
  SequenceNumber p = SequenceNumber q /\
  AckNumber p = AckNumber q /\
  DO p = DO q /\
  RSV p = RSV q /\
  Flags p = Flags q /\
  Window p = Window q /\
  Checksum p = Checksum q /\
  UrgentPointer p = UrgentPointer q.
Proof.
  intros H.
  unfold SourcePort, DestinationPort, SequenceNumber, AckNumber, DO, RSV,
         Flags, Window, Checksum, UrgentPointer.
  rewrite (reslice_backing p q 0 2 H), (reslice_backing p q 2 4 H),
          (reslice_backing p q 4 8 H), (reslice_backing p q 8 12 H),
          (reslice_backing p q 12 14 H), (reslice_backing p q 14 16 H),
          (reslice_backing p q 16 18 H), (reslice_backing p q 18 20 H).
  repeat split.
Qed.

Lemma accessors_ignore_length_witness :
  UrgentPointer (mkPacket (mkSlice [] (elems (Header sample)))) = UrgentPointer sample.
Proof.
  apply (accessors_ignore_length
           (mkPacket (mkSlice [] (elems (Header sample)))) sample).
  reflexivity.
Defined.

(** X9: each multi-byte accessor needs only its own bytes: when the end of
    its byte range is within the capacity it returns the big-endian value
    of that range of the backing array, on buffers of any length. *)
Theorem multi_byte_fields_on_short_buffers (p : Packet) :
  ((2 <= cap (Header p))%nat ->
   SourcePort p = Ok (big_endian (backing_between p 0 2))) /\
  ((4 <= cap (Header p))%nat ->
   DestinationPort p = Ok (big_endian (backing_between p 2 4))) /\
  ((8 <= cap (Header p))%nat ->
   SequenceNumber p = Ok (big_endian (backing_between p 4 8))) /\
  ((12 <= cap (Header p))%nat ->
   AckNumber p = Ok (big_endian (backing_between p 8 12))) /\
  ((16 <= cap (Header p))%nat ->
   Window p = Ok (big_endian (backing_between p 14 16))) /\
  ((18 <= cap (Header p))%nat ->
   Checksum p = Ok (big_endian (backing_between p 16 18))) /\
  ((20 <= cap (Header p))%nat ->
   UrgentPointer p = Ok (big_endian (backing_between p 18 20))).
Proof.
  repeat match goal with |- _ /\ _ => split end; intros H.
  - exact (field16_value p 0 H).
  - exact (field16_value p 2 H).
  - exact (field32_value p 4 H).
  - exact (field32_value p 8 H).
  - exact (field16_value p 14 H).
  - exact (field16_value p 16 H).
  - exact (field16_value p 18 H).
Qed.

Lemma multi_byte_fields_on_short_buffers_witness :
  Checksum short_sample = Ok (big_endian (backing_between short_sample 16 18)).
Proof.
  destruct (multi_byte_fields_on_short_buffers short_sample)
    as (_ & _ & _ & _ & _ & Hck & _).
  apply Hck. unfold cap; simpl; lia.
Defined.

(** X10: Flags reads seven bits only: the highest and the lowest bit of
    byte 12 and the five highest bits of byte 13.  Two buffers of capacity
    at least 14 that agree on these bits give the same result. *)
Theorem Flags_reads_seven_bits (p q : Packet) :
  (14 <= cap (Header p))%nat ->
  (14 <= cap (Header q))%nat ->
  Z.testbit (u8 (backing_byte p 12)) 7 = Z.testbit (u8 (backing_byte q 12)) 7 ->
  Z.testbit (u8 (backing_byte p 12)) 0 = Z.testbit (u8 (backing_byte q 12)) 0 ->
  Z.shiftr (u8 (backing_byte p 13)) 3 = Z.shiftr (u8 (backing_byte q 13)) 3 ->
  Flags p = Flags q.
Proof.
  intros Hp Hq H7 H0 H13.
  rewrite (Flags_bytes p Hp), (Flags_bytes q Hq).
  rewrite !below_128_bit7, H7.
  unfold documented_flags.
  rewrite !msb0_bit_shiftr by lia.
  rewrite H0, H13. reflexivity.
Qed.

Lemma Flags_reads_seven_bits_witness :
  Flags (sample_with xa0 x02) = Flags (sample_with xfe x07).
Proof.
  apply (Flags_reads_seven_bits (sample_with xa0 x02) (sample_with xfe x07));
    first [reflexivity | unfold cap; simpl; lia].
Defined.

(** X11: on a buffer of capacity at least 14, DO returns the most
    significant nibble of byte 12 exactly when byte 12 is at least 0x80
    (a data offset of 8 or more); RSV then returns bits 4 to 6. *)
Theorem documented_layout_iff_msb_set (p : Packet) :
  (14 <= cap (Header p))%nat ->
  (DO p = Ok (top_nibble (backing_byte p 12)) <-> 128 <= u8 (backing_byte p 12)) /\
  (128 <= u8 (backing_byte p 12) -> RSV p = Ok (bits_4_to_6 (backing_byte p 12))).
Proof.
  intros Hc.
  rewrite (DO_bytes p Hc), (RSV_bytes p Hc), DO_digits, RSV_digits.
  destruct (backing_byte p 12);
    (split; [split |]); intros H;
    first [ reflexivity
          | vm_compute; discriminate
          | vm_compute in H; discriminate H
          | vm_compute in H; exfalso; apply H; reflexivity ].
Qed.

Lemma documented_layout_iff_msb_set_witness :
  DO sample = Ok (top_nibble (backing_byte sample 12)) /\
  RSV sample = Ok (bits_4_to_6 (backing_byte sample 12)).
Proof.
  assert (Hc : (14 <= cap (Header sample))%nat) by (unfold cap; simpl; lia).
  destruct (documented_layout_iff_msb_set sample Hc) as [Hdo Hrsv].
  assert (Hb : 128 <= u8 (backing_byte sample 12)) by (vm_compute; discriminate).
  split; [apply Hdo; exact Hb | apply Hrsv; exact Hb].
Defined.

(** X12: the three bit-field accessors fail in a fixed order: on any
    buffer, if Flags returns then RSV returns, and if RSV returns then DO
    returns. *)
Theorem bitfield_accessors_nest (p : Packet) :
  (returns (Flags p) -> returns (RSV p)) /\
  (returns (RSV p) -> returns (DO p)).
Proof.
  destruct (Nat.ltb_spec (cap (Header p)) 14) as [Hc | Hc].
  - destruct (bitfields_panic_below_14 p Hc) as (-> & -> & ->).
    split; intros [v Hv]; discriminate Hv.
  - rewrite (Flags_bytes p Hc), (RSV_bytes p Hc), (DO_bytes p Hc),
            RSV_digits, DO_digits.
    destruct (Z.ltb_spec (u8 (backing_byte p 12)) 128);
    destruct (Z.ltb_spec (u8 (backing_byte p 12)) 64);
    destruct (Z.ltb_spec (u8 (backing_byte p 12)) 8);
      split; intros [v Hv];
      first [discriminate Hv | lia | eexists; reflexivity].
Qed.

Lemma bitfield_accessors_nest_witness : returns (RSV sample) /\ returns (DO sample).
Proof.
  assert (Hf : returns (Flags sample)) by (eexists; reflexivity).
  assert (Hr : returns (RSV sample))
    by (apply (proj1 (bitfield_accessors_nest sample)); exact Hf).
  split; [exact Hr | apply (proj2 (bitfield_accessors_nest sample)); exact Hr].
Defined.

(** X13: on any buffer of capacity at least 14 whose bytes 12 and 13 are
    packed by the documented layout from a data offset of 8 to 15, a
    reserved value of 0 to 7 and six flags, DO, RSV and Flags return
    exactly these values. *)
Theorem packed_fields_roundtrip (p : Packet) (do rsv : Z) (f : FlagSet) :
  (14 <= cap (Header p))%nat ->
  8 <= do <= 15 -> 0 <= rsv <= 7 ->
  backing_byte p 12 = byte_of_Z (pack_byte12 do rsv (SYN f)) ->
  backing_byte p 13 = byte_of_Z (pack_byte13 f) ->
  DO p = Ok do /\ RSV p = Ok rsv /\ Flags p = Ok f.
Proof.
  intros Hc Hdo Hrsv H12 H13.
  rewrite (DO_bytes p Hc), (RSV_bytes p Hc), (Flags_bytes p Hc),
          DO_digits, RSV_digits, H12, H13.
  apply small_range_cases in Hdo. apply small_range_cases in Hrsv.
  cbv [map seq Z.to_nat Z.sub Z.add Z.opp Z.pos_sub Z.succ_double Z.pred_double
       Z.double Pos.to_nat Pos.iter_op Nat.add Pos.pred_double Pos.add Pos.succ
       Z.of_nat Pos.of_succ_nat In] in Hdo, Hrsv.
  destruct f as [syn ack rst fin psh urg].
  assert (Hflags : forall b12,
            documented_flags b12 (byte_of_Z (pack_byte13 (mkFlags syn ack rst fin psh urg)))
            = mkFlags (Z.testbit (u8 b12) 0) ack rst fin psh urg).
  { intros b12. destruct ack, rst, fin, psh, urg; reflexivity. }
  rewrite Hflags. cbn [SYN].
  repeat (destruct Hdo as [<- | Hdo]; [| try contradiction]);
  repeat (destruct Hrsv as [<- | Hrsv]; [| try contradiction]);
  destruct syn; repeat split.
Qed.

Lemma packed_fields_roundtrip_witness :
  DO (packed 10 3 (mkFlags true false true false true false)) = Ok 10 /\
  RSV (packed 10 3 (mkFlags true false true false true false)) = Ok 3 /\
  Flags (packed 10 3 (mkFlags true false true false true false))
  = Ok (mkFlags true false true false true false).
Proof.
  apply (packed_fields_roundtrip
           (packed 10 3 (mkFlags true false true false true false)) 10 3
           (mkFlags true false true false true false));
    first [reflexivity | lia | unfold cap; simpl; lia].
Defined.
